(** * Key bindings: combo matching and action resolution

    A shallow embedding of [src/KeyBindingsManager.ts]: the key-combo matcher
    [isKeyComboMatch] and the resolver [KeyBindingsManager.getAction] with the
    five public lookups built on it, followed by the properties the
    specification states about them. *)

From Stdlib Require Import String Ascii List Bool Arith Lia.
Import ListNotations.
Open Scope string_scope.
Open Scope bool_scope.
Open Scope list_scope.

Set Implicit Arguments.

(** ** JavaScript operators the source relies on *)

(** [a ?? b]: the left operand unless it is [undefined]. An optional field of
    a TypeScript object type is an [option]; [None] is [undefined]. *)
Definition nullish {A : Type} (o : option A) (d : A) : A :=
  match o with
  | Some v => v
  | None => d
  end.

Notation "o ?? d" := (nullish o d) (at level 45, left associativity).

(** Truthiness of a value of type [boolean | undefined]. *)
Definition truthy (o : option bool) : bool :=
  match o with
  | Some true => true
  | _ => false
  end.

(** [a !== b] on booleans and on strings (both compare by value). *)
Definition bool_neq (a b : bool) : bool := negb (Bool.eqb a b).
Definition string_neq (a b : string) : bool := negb (String.eqb a b).

Infix "!==" := bool_neq (at level 70, no associativity).

(** The restriction of [String.prototype.toLowerCase] to ASCII text: the
    letters [A]..[Z] move to [a]..[z], every other character stays. It is the
    instance used to evaluate the matcher on concrete key labels. *)
Definition asciiLower (c : ascii) : ascii :=
  let n := nat_of_ascii c in
  if ((65 <=? n)%nat && (n <=? 90)%nat) then ascii_of_nat (n + 32) else c.

Fixpoint asciiToLowerCase (s : string) : string :=
  match s with
  | EmptyString => EmptyString
  | String c rest => String (asciiLower c) (asciiToLowerCase rest)
  end.

(** ** Data model *)

(** The fields of a DOM [KeyboardEvent] that the matcher reads. *)
Module KeyboardEvent.
Record t : Type := mk {
  key : string;
  altKey : bool;
  ctrlKey : bool;
  metaKey : bool;
  shiftKey : bool
}.

(** The same key press with another key label. *)
Definition withKey (k : string) (ev : t) : t :=
  mk k (altKey ev) (ctrlKey ev) (metaKey ev) (shiftKey ev).
End KeyboardEvent.

(** [type KeyCombo]: every field is optional. *)
Module KeyCombo.
Record t : Type := mk {
  key : option string;
  (* On PC: ctrl is pressed; on Mac: meta is pressed *)
  ctrlOrCmd : option bool;
  altKey : option bool;
  ctrlKey : option bool;
  metaKey : option bool;
  shiftKey : option bool
}.

(** The object literal [{}]. *)
Definition empty : t := mk None None None None None None.

(** Functional field updates, [{...combo, field: v}]. *)
Definition withKey (v : option string) (c : t) : t :=
  mk v (ctrlOrCmd c) (altKey c) (ctrlKey c) (metaKey c) (shiftKey c).
Definition withCtrlKey (v : option bool) (c : t) : t :=
  mk (key c) (ctrlOrCmd c) (altKey c) v (metaKey c) (shiftKey c).
Definition withMetaKey (v : option bool) (c : t) : t :=
  mk (key c) (ctrlOrCmd c) (altKey c) (ctrlKey c) v (shiftKey c).
Definition withCtrlOrCmd (v : option bool) (c : t) : t :=
  mk (key c) v (altKey c) (ctrlKey c) (metaKey c) (shiftKey c).
End KeyCombo.

(** The action enumerations, one per UI context. *)
Inductive MessageComposerAction : Type :=
| Send | SelectPrevSendHistory | SelectNextSendHistory | EditPrevMessage
| EditNextMessage | CancelEditing | FormatBold | FormatItalics | FormatQuote
| EditUndo | EditRedo | NewLine | MoveCursorToStart | MoveCursorToEnd.

Inductive AutocompleteAction : Type :=
| ApplySelection | Cancel | PrevSelection | NextSelection.

Inductive RoomListAction : Type :=
| ClearSearch | PrevRoom | NextRoom | SelectRoom | CollapseSection
| ExpandSection.

Inductive RoomAction : Type :=
| FocusRoomSearch | ScrollUp | RoomScrollDown | DismissReadMarker
| JumpToOldestUnread | UploadFile | FocusSearch | JumpToFirstMessage
| JumpToLatestMessage.

Inductive NavigationAction : Type :=
| ToggleRoomSidePanel | ToggleUserMenu | ToggleShortCutDialog | GoToHome
| SelectPrevRoom | SelectNextRoom | SelectPrevUnreadRoom
| SelectNextUnreadRoom.

(** [type KeyBinding<T>]. *)
Record KeyBinding (T : Type) : Type := mkKeyBinding {
  action : T;
  keyCombo : KeyCombo.t
}.

(** [type KeyBindingGetter<T> = () => KeyBinding<T>[]]. *)
Definition KeyBindingGetter (T : Type) : Type := unit -> list (KeyBinding T).

(** [interface IKeyBindingsProvider]. *)
Record IKeyBindingsProvider : Type := mkProvider {
  getMessageComposerBindings : KeyBindingGetter MessageComposerAction;
  getAutocompleteBindings : KeyBindingGetter AutocompleteAction;
  getRoomListBindings : KeyBindingGetter RoomListAction;
  getRoomBindings : KeyBindingGetter RoomAction;
  getNavigationBindings : KeyBindingGetter NavigationAction
}.

(** [class KeyBindingsManager]: its only field is the provider sequence. *)
Record KeyBindingsManager : Type := mkManager {
  bindingsProviders : list IKeyBindingsProvider
}.

(** The five UI contexts, to speak of "every context" at once. *)
Inductive UIContext : Type :=
| MessageComposerCtx | AutocompleteCtx | RoomListCtx | RoomCtx | NavigationCtx.

Definition ActionOf (c : UIContext) : Type :=
  match c with
  | MessageComposerCtx => MessageComposerAction
  | AutocompleteCtx => AutocompleteAction
  | RoomListCtx => RoomListAction
  | RoomCtx => RoomAction
  | NavigationCtx => NavigationAction
  end.

(** The getter a provider exposes for a context. *)
Definition bindingsGetter (c : UIContext)
  : IKeyBindingsProvider -> KeyBindingGetter (ActionOf c) :=
  match c with
  | MessageComposerCtx => getMessageComposerBindings
  | AutocompleteCtx => getAutocompleteBindings
  | RoomListCtx => getRoomListBindings
  | RoomCtx => getRoomBindings
  | NavigationCtx => getNavigationBindings
  end.

Section KeyBindings.

(** [String.prototype.toLowerCase], a built-in of the host language: the
    matcher only ever compares two of its results, so it is left abstract. *)
Variable toLowerCase : string -> string.

(** [isMac], imported from [./Keyboard]: a constant of the running
    platform. *)
Variable isMac : bool.

(** ** The matcher *)

(** [isKeyComboMatch(ev, combo, onMac)]. Each [return false] of the source
    is the [then false] of the test that guards it. *)
Definition isKeyComboMatch
    (ev : KeyboardEvent.t) (combo : KeyCombo.t) (onMac : bool) : bool :=
  if match KeyCombo.key combo with
     | Some comboKey =>
         (* When shift is pressed, letters are returned as upper case
            chars. In this case do a lower case comparison. *)
         if KeyboardEvent.shiftKey ev
         then string_neq (toLowerCase (KeyboardEvent.key ev))
                         (toLowerCase comboKey)
         else string_neq (KeyboardEvent.key ev) comboKey
     | None => false
     end
  then false
  else
    let comboCtrl := KeyCombo.ctrlKey combo ?? false in
    let comboAlt := KeyCombo.altKey combo ?? false in
    let comboShift := KeyCombo.shiftKey combo ?? false in
    let comboMeta := KeyCombo.metaKey combo ?? false in
    (* When ctrlOrCmd is set, the keys need do evaluated differently on PC
       and Mac *)
    if truthy (KeyCombo.ctrlOrCmd combo) then
      if onMac then
        if negb (KeyboardEvent.metaKey ev)
           || (KeyboardEvent.ctrlKey ev !== comboCtrl)
           || (KeyboardEvent.altKey ev !== comboAlt)
           || (KeyboardEvent.shiftKey ev !== comboShift)
        then false
        else true
      else
        if negb (KeyboardEvent.ctrlKey ev)
           || (KeyboardEvent.metaKey ev !== comboMeta)
           || (KeyboardEvent.altKey ev !== comboAlt)
           || (KeyboardEvent.shiftKey ev !== comboShift)
        then false
        else true
    else
      if (KeyboardEvent.metaKey ev !== comboMeta)
         || (KeyboardEvent.ctrlKey ev !== comboCtrl)
         || (KeyboardEvent.altKey ev !== comboAlt)
         || (KeyboardEvent.shiftKey ev !== comboShift)
      then false
      else true.

(** ** The resolver *)

(** [KeyBindingsManager.getAction]: the [for ... of] loop over the getters,
    with [Array.prototype.find] as [List.find]; a found binding is an
    object, hence truthy, and its action is returned at once. [None] is
    [undefined]. *)
Fixpoint getAction (T : Type) (getters : list (KeyBindingGetter T))
    (ev : KeyboardEvent.t) : option T :=
  match getters with
  | [] => None
  | getter :: rest =>
      let bindings := getter tt in
      match find (fun it => isKeyComboMatch ev (keyCombo it) isMac)
                 bindings with
      | Some binding => Some (action binding)
      | None => getAction rest ev
      end
  end.

Definition getMessageComposerAction (this : KeyBindingsManager)
    (ev : KeyboardEvent.t) : option MessageComposerAction :=
  getAction (map getMessageComposerBindings (bindingsProviders this)) ev.

Definition getAutocompleteAction (this : KeyBindingsManager)
    (ev : KeyboardEvent.t) : option AutocompleteAction :=
  getAction (map getAutocompleteBindings (bindingsProviders this)) ev.

Definition getRoomListAction (this : KeyBindingsManager)
    (ev : KeyboardEvent.t) : option RoomListAction :=
  getAction (map getRoomListBindings (bindingsProviders this)) ev.

Definition getRoomAction (this : KeyBindingsManager)
    (ev : KeyboardEvent.t) : option RoomAction :=
  getAction (map getRoomBindings (bindingsProviders this)) ev.

Definition getNavigationAction (this : KeyBindingsManager)
    (ev : KeyboardEvent.t) : option NavigationAction :=
  getAction (map getNavigationBindings (bindingsProviders this)) ev.

(** The lookup of a manager for a context: one of the five methods above. *)
Definition resolveAction (this : KeyBindingsManager) (c : UIContext)
    (ev : KeyboardEvent.t) : option (ActionOf c) :=
  match c with
  | MessageComposerCtx => getMessageComposerAction this ev
  | AutocompleteCtx => getAutocompleteAction this ev
  | RoomListCtx => getRoomListAction this ev
  | RoomCtx => getRoomAction this ev
  | NavigationCtx => getNavigationAction this ev
  end.

(** ** Vocabulary of the statements *)

(** The key-label test of the matcher, on its own: passed when the combo
    names no key, and otherwise the comparison the source makes, on the
    lower-cased labels under shift and on the labels themselves without. *)
Definition keyLabelTest (ev : KeyboardEvent.t) (combo : KeyCombo.t) : bool :=
  match KeyCombo.key combo with
  | Some comboKey =>
      if KeyboardEvent.shiftKey ev
      then String.eqb (toLowerCase (KeyboardEvent.key ev))
                      (toLowerCase comboKey)
      else String.eqb (KeyboardEvent.key ev) comboKey
  | None => true
  end.

(** A binding whose combo the event matches on this platform. *)
Definition matches (T : Type) (ev : KeyboardEvent.t) (b : KeyBinding T)
    : bool :=
  isKeyComboMatch ev (keyCombo b) isMac.

(** The binding list a provider yields for a context. *)
Definition bindingsFor (c : UIContext) (p : IKeyBindingsProvider)
    : list (KeyBinding (ActionOf c)) :=
  bindingsGetter c p tt.

(** No binding of the list matches the event. *)
Definition noMatch (T : Type) (ev : KeyboardEvent.t)
    (bs : list (KeyBinding T)) : Prop :=
  Forall (fun b => matches ev b = false) bs.

(** [b] is the first binding of the list that matches the event. *)
Definition firstMatch (T : Type) (ev : KeyboardEvent.t)
    (bs : list (KeyBinding T)) (b : KeyBinding T) : Prop :=
  exists l1 l2,
    bs = l1 ++ b :: l2 /\ noMatch ev l1 /\ matches ev b = true.

(** None of these providers has a matching binding for the context. *)
Definition silentProviders (c : UIContext) (ev : KeyboardEvent.t)
    (ps : list IKeyBindingsProvider) : Prop :=
  Forall (fun p => noMatch ev (bindingsFor c p)) ps.

(** The list has a binding that matches the event. *)
Definition hasMatch (T : Type) (ev : KeyboardEvent.t)
    (bs : list (KeyBinding T)) : Prop :=
  Exists (fun b => matches ev b = true) bs.

End KeyBindings.

(** ** Sample events, combos and providers *)

Definition keyPress (label : string) : KeyboardEvent.t :=
  KeyboardEvent.mk label false false false false.

Definition shiftPress (label : string) : KeyboardEvent.t :=
  KeyboardEvent.mk label false false false true.

Definition ctrlPress (label : string) : KeyboardEvent.t :=
  KeyboardEvent.mk label false true false false.

Definition cmdPress (label : string) : KeyboardEvent.t :=
  KeyboardEvent.mk label false false true false.

(** Cmd and Ctrl held together. *)
Definition cmdCtrlPress (label : string) : KeyboardEvent.t :=
  KeyboardEvent.mk label false true true false.

(** [{key: k}]. *)
Definition keyOnly (k : string) : KeyCombo.t :=
  KeyCombo.withKey (Some k) KeyCombo.empty.

(** [{key: k, shiftKey: true}]. *)
Definition keyWithShift (k : string) : KeyCombo.t :=
  KeyCombo.mk (Some k) None None None None (Some true).

(** [{key: k, ctrlOrCmd: true}]. *)
Definition keyWithCtrlOrCmd (k : string) : KeyCombo.t :=
  KeyCombo.mk (Some k) (Some true) None None None None.

(** [{key: k, ctrlOrCmd: true, ctrlKey: true}]. *)
Definition keyWithCtrlOrCmdAndCtrl (k : string) : KeyCombo.t :=
  KeyCombo.mk (Some k) (Some true) None (Some true) None None.

(** [{key: k, ctrlOrCmd: true, metaKey: true}]. *)
Definition keyWithCtrlOrCmdAndMeta (k : string) : KeyCombo.t :=
  KeyCombo.mk (Some k) (Some true) None None (Some true) None.

(** [{ctrlKey: true}]. *)
Definition ctrlOnly : KeyCombo.t :=
  KeyCombo.withCtrlKey (Some true) KeyCombo.empty.

(** A provider with the given composer bindings and no others. *)
Definition composerProvider (bs : list (KeyBinding MessageComposerAction))
    : IKeyBindingsProvider :=
  mkProvider (fun _ => bs) (fun _ => []) (fun _ => []) (fun _ => [])
             (fun _ => []).

Definition sendOnEnter : IKeyBindingsProvider :=
  composerProvider [mkKeyBinding Send (keyOnly "Enter")].

Definition newLineOnEnter : IKeyBindingsProvider :=
  composerProvider [mkKeyBinding NewLine (keyOnly "Enter")].

Definition undoOnEnter : IKeyBindingsProvider :=
  composerProvider [mkKeyBinding EditUndo (keyOnly "Enter")].

(** One provider, two bindings for one key. *)
Definition boldThenItalics : IKeyBindingsProvider :=
  composerProvider [mkKeyBinding FormatBold (keyWithCtrlOrCmd "b");
                    mkKeyBinding FormatItalics (keyWithCtrlOrCmd "b")].

(** One provider binding Enter twice, and one binding it three times. *)
Definition newLineThenUndoOnEnter : IKeyBindingsProvider :=
  composerProvider [mkKeyBinding NewLine (keyOnly "Enter");
                    mkKeyBinding EditUndo (keyOnly "Enter")].

Definition sendNewLineUndoOnEnter : IKeyBindingsProvider :=
  composerProvider [mkKeyBinding Send (keyOnly "Enter");
                    mkKeyBinding NewLine (keyOnly "Enter");
                    mkKeyBinding EditUndo (keyOnly "Enter")].

(** [{ctrlOrCmd: false, altKey: false, ctrlKey: false, metaKey: false,
    shiftKey: false}]. *)
Definition allFlagsFalse : KeyCombo.t :=
  KeyCombo.mk None (Some false) (Some false) (Some false) (Some false)
              (Some false).

(** A provider with the given room bindings and no others. *)
Definition roomProvider (bs : list (KeyBinding RoomAction))
    : IKeyBindingsProvider :=
  mkProvider (fun _ => []) (fun _ => []) (fun _ => []) (fun _ => bs)
             (fun _ => []).

Definition uploadOnCtrlOrCmdU : IKeyBindingsProvider :=
  roomProvider [mkKeyBinding UploadFile (keyWithCtrlOrCmd "u")].

(** The composer bindings of [sendOnEnter] together with room bindings. *)
Definition sendOnEnterWithRoom : IKeyBindingsProvider :=
  mkProvider (fun _ => [mkKeyBinding Send (keyOnly "Enter")])
             (fun _ => []) (fun _ => [])
             (fun _ => [mkKeyBinding ScrollUp (keyOnly "PageUp")])
             (fun _ => []).

(** ** The string values of the action enumerations

    Each member of the five [enum]s of the source is initialised with a
    string literal; these functions give that literal. *)

Definition MessageComposerAction_value (a : MessageComposerAction) : string :=
  match a with
  | Send => "Send"
  | SelectPrevSendHistory => "SelectPrevSendHistory"
  | SelectNextSendHistory => "SelectNextSendHistory"
  | EditPrevMessage => "EditPrevMessage"
  | EditNextMessage => "EditNextMessage"
  | CancelEditing => "CancelEditing"
  | FormatBold => "FormatBold"
  | FormatItalics => "FormatItalics"
  | FormatQuote => "FormatQuote"
  | EditUndo => "EditUndo"
  | EditRedo => "EditRedo"
  | NewLine => "NewLine"
  | MoveCursorToStart => "MoveCursorToStart"
  | MoveCursorToEnd => "MoveCursorToEnd"
  end.

Definition AutocompleteAction_value (a : AutocompleteAction) : string :=
  match a with
  | ApplySelection => "ApplySelection"
  | Cancel => "Cancel"
  | PrevSelection => "PrevSelection"
  | NextSelection => "NextSelection"
  end.

Definition RoomListAction_value (a : RoomListAction) : string :=
  match a with
  | ClearSearch => "ClearSearch"
  | PrevRoom => "PrevRoom"
  | NextRoom => "NextRoom"
  | SelectRoom => "SelectRoom"
  | CollapseSection => "CollapseSection"
  | ExpandSection => "ExpandSection"
  end.

Definition RoomAction_value (a : RoomAction) : string :=
  match a with
  | FocusRoomSearch => "FocusRoomSearch"
  | ScrollUp => "ScrollUp"
  | RoomScrollDown => "RoomScrollDown"
  | DismissReadMarker => "DismissReadMarker"
  | JumpToOldestUnread => "JumpToOldestUnread"
  | UploadFile => "UploadFile"
  | FocusSearch => "FocusSearch"
  | JumpToFirstMessage => "JumpToFirstMessage"
  | JumpToLatestMessage => "JumpToLatestMessage"
  end.

Definition NavigationAction_value (a : NavigationAction) : string :=
  match a with
  | ToggleRoomSidePanel => "ToggleRoomSidePanel"
  | ToggleUserMenu => "ToggleUserMenu"
  | ToggleShortCutDialog => "ToggleShortCutDialog"
  | GoToHome => "GoToHome"
  | SelectPrevRoom => "SelectPrevRoom"
  | SelectNextRoom => "SelectNextRoom"
  | SelectPrevUnreadRoom => "SelectPrevUnreadRoom"
  | SelectNextUnreadRoom => "SelectNextUnreadRoom"
  end.

(** The string an action of a context is at run time. *)
Definition actionValue (c : UIContext) : ActionOf c -> string :=
  match c with
  | MessageComposerCtx => MessageComposerAction_value
  | AutocompleteCtx => AutocompleteAction_value
  | RoomListCtx => RoomListAction_value
  | RoomCtx => RoomAction_value
  | NavigationCtx => NavigationAction_value
  end.

(** * Properties of the matcher *)

Lemma bool_neq_false (a b : bool) : (a !== b) = false <-> a = b.
Proof.
  unfold bool_neq. rewrite negb_false_iff. apply Bool.eqb_true_iff.
Qed.

Lemma string_neq_false (a b : string) : string_neq a b = false <-> a = b.
Proof.
  unfold string_neq. rewrite negb_false_iff. apply String.eqb_eq.
Qed.

Lemma string_neq_eqb (a b : string) : string_neq a b = negb (String.eqb a b).
Proof. reflexivity. Qed.

(** A guarded [return false] followed by [return true]. *)
Lemma guard_true (g : bool) : (if g then false else true) = true <-> g = false.
Proof. destruct g; split; congruence. Qed.

Lemma truthy_true (o : option bool) : truthy o = true <-> o = Some true.
Proof. destruct o as [[|]|]; simpl; split; congruence. Qed.

Lemma truthy_false (o : option bool) :
  truthy o = false <-> o = None \/ o = Some false.
Proof.
  destruct o as [[|]|]; simpl; split; try congruence; auto.
  intros [H|H]; discriminate.
Qed.

Section MatcherProperties.

Variable toLowerCase : string -> string.

(** The matcher is the key-label test followed by the modifier test, and
    the modifier test is the matcher run on the combo without its key. *)
Lemma isKeyComboMatch_split ev combo onMac :
  isKeyComboMatch toLowerCase ev combo onMac
  = keyLabelTest toLowerCase ev combo
    && isKeyComboMatch toLowerCase ev (KeyCombo.withKey None combo) onMac.
Proof.
  unfold isKeyComboMatch, keyLabelTest. destruct combo as [k co a c m s].
  simpl. destruct k as [k|]; [|reflexivity].
  rewrite !string_neq_eqb.
  destruct (KeyboardEvent.shiftKey ev);
    match goal with |- context [String.eqb ?x ?y] =>
      destruct (String.eqb x y) end; reflexivity.
Qed.

(** What the key-label test decides, as equations on strings. *)
Lemma keyLabelTest_true ev combo :
  keyLabelTest toLowerCase ev combo = true <->
  match KeyCombo.key combo with
  | Some comboKey =>
      if KeyboardEvent.shiftKey ev
      then toLowerCase (KeyboardEvent.key ev) = toLowerCase comboKey
      else KeyboardEvent.key ev = comboKey
  | None => True
  end.
Proof.
  unfold keyLabelTest. destruct (KeyCombo.key combo) as [k|].
  - destruct (KeyboardEvent.shiftKey ev); apply String.eqb_eq.
  - tauto.
Qed.

(** The modifier test without [ctrlOrCmd]. *)
Lemma keyless_plain_match ev combo onMac :
  KeyCombo.key combo = None ->
  truthy (KeyCombo.ctrlOrCmd combo) = false ->
  isKeyComboMatch toLowerCase ev combo onMac = true <->
    KeyboardEvent.metaKey ev = KeyCombo.metaKey combo ?? false /\
    KeyboardEvent.ctrlKey ev = KeyCombo.ctrlKey combo ?? false /\
    KeyboardEvent.altKey ev = KeyCombo.altKey combo ?? false /\
    KeyboardEvent.shiftKey ev = KeyCombo.shiftKey combo ?? false.
Proof.
  intros Hk Hc. unfold isKeyComboMatch. rewrite Hk, Hc.
  cbv zeta. rewrite guard_true, !orb_false_iff, !bool_neq_false. tauto.
Qed.

(** The modifier test with [ctrlOrCmd], on Mac. *)
Lemma keyless_ctrlOrCmd_match_mac ev combo :
  KeyCombo.key combo = None ->
  truthy (KeyCombo.ctrlOrCmd combo) = true ->
  isKeyComboMatch toLowerCase ev combo true = true <->
    KeyboardEvent.metaKey ev = true /\
    KeyboardEvent.ctrlKey ev = KeyCombo.ctrlKey combo ?? false /\
    KeyboardEvent.altKey ev = KeyCombo.altKey combo ?? false /\
    KeyboardEvent.shiftKey ev = KeyCombo.shiftKey combo ?? false.
Proof.
  intros Hk Hc. unfold isKeyComboMatch. rewrite Hk, Hc.
  cbv zeta iota. rewrite guard_true, !orb_false_iff, !bool_neq_false.
  rewrite negb_false_iff. tauto.
Qed.

(** The modifier test with [ctrlOrCmd], off Mac. *)
Lemma keyless_ctrlOrCmd_match_pc ev combo :
  KeyCombo.key combo = None ->
  truthy (KeyCombo.ctrlOrCmd combo) = true ->
  isKeyComboMatch toLowerCase ev combo false = true <->
    KeyboardEvent.ctrlKey ev = true /\
    KeyboardEvent.metaKey ev = KeyCombo.metaKey combo ?? false /\
    KeyboardEvent.altKey ev = KeyCombo.altKey combo ?? false /\
    KeyboardEvent.shiftKey ev = KeyCombo.shiftKey combo ?? false.
Proof.
  intros Hk Hc. unfold isKeyComboMatch. rewrite Hk, Hc.
  cbv zeta iota. rewrite guard_true, !orb_false_iff, !bool_neq_false.
  rewrite negb_false_iff. tauto.
Qed.

(** A match implies a match of the combo without its key. *)
Lemma match_then_modifiers_match ev combo onMac :
  isKeyComboMatch toLowerCase ev combo onMac = true ->
  isKeyComboMatch toLowerCase ev (KeyCombo.withKey None combo) onMac = true.
Proof.
  rewrite isKeyComboMatch_split, andb_true_iff. tauto.
Qed.

(** What a match means under [ctrlOrCmd], on each platform. *)
Lemma ctrlOrCmd_match_sides ev combo :
  KeyCombo.ctrlOrCmd combo = Some true ->
  (isKeyComboMatch toLowerCase ev combo true = true ->
     KeyboardEvent.metaKey ev = true /\
     KeyboardEvent.ctrlKey ev = KeyCombo.ctrlKey combo ?? false /\
     KeyboardEvent.altKey ev = KeyCombo.altKey combo ?? false /\
     KeyboardEvent.shiftKey ev = KeyCombo.shiftKey combo ?? false) /\
  (isKeyComboMatch toLowerCase ev combo false = true ->
     KeyboardEvent.ctrlKey ev = true /\
     KeyboardEvent.metaKey ev = KeyCombo.metaKey combo ?? false /\
     KeyboardEvent.altKey ev = KeyCombo.altKey combo ?? false /\
     KeyboardEvent.shiftKey ev = KeyCombo.shiftKey combo ?? false).
Proof.
  intros Hc. apply truthy_true in Hc. split; intros H;
    apply match_then_modifiers_match in H.
  - now apply keyless_ctrlOrCmd_match_mac in H.
  - now apply keyless_ctrlOrCmd_match_pc in H.
Qed.

(** C1. With [ctrlOrCmd] set true, a match on Mac implies that the event
    has meta held and that its ctrl, alt and shift flags equal the combo's
    [ctrlKey], [altKey] and [shiftKey] (absent = false); a match off Mac
    implies that the event has ctrl held and that its meta, alt and shift
    flags equal the combo's [metaKey], [altKey] and [shiftKey]. So on Mac
    ctrl held without meta never matches, and off Mac meta held without
    ctrl never matches. *)
Theorem ctrlOrCmd_match_requires_primary_modifier ev combo :
  KeyCombo.ctrlOrCmd combo = Some true ->
  (isKeyComboMatch toLowerCase ev combo true = true ->
     KeyboardEvent.metaKey ev = true /\
     KeyboardEvent.ctrlKey ev = KeyCombo.ctrlKey combo ?? false /\
     KeyboardEvent.altKey ev = KeyCombo.altKey combo ?? false /\
     KeyboardEvent.shiftKey ev = KeyCombo.shiftKey combo ?? false) /\
  (isKeyComboMatch toLowerCase ev combo false = true ->
     KeyboardEvent.ctrlKey ev = true /\
     KeyboardEvent.metaKey ev = KeyCombo.metaKey combo ?? false /\
     KeyboardEvent.altKey ev = KeyCombo.altKey combo ?? false /\
     KeyboardEvent.shiftKey ev = KeyCombo.shiftKey combo ?? false) /\
  (KeyboardEvent.ctrlKey ev = true -> KeyboardEvent.metaKey ev = false ->
     isKeyComboMatch toLowerCase ev combo true = false) /\
  (KeyboardEvent.metaKey ev = true -> KeyboardEvent.ctrlKey ev = false ->
     isKeyComboMatch toLowerCase ev combo false = false).
Proof.
  intros Hc.
  destruct (@ctrlOrCmd_match_sides ev combo Hc) as [Hmac Hpc].
  repeat split; try (apply Hmac; assumption); try (apply Hpc; assumption).
  - intros _ Hmeta. apply not_true_is_false. intros H.
    apply Hmac in H. destruct H as [H _]. congruence.
  - intros _ Hctrl. apply not_true_is_false. intros H.
    apply Hpc in H. destruct H as [H _]. congruence.
Qed.

(** C2. With [ctrlOrCmd] unset or false, the matcher returns true exactly
    when the key-label test passes (it passes when the combo names no key)
    and the event's meta, ctrl, alt and shift flags equal the combo's
    [metaKey], [ctrlKey], [altKey] and [shiftKey], absent counting as
    false. *)
Theorem plain_combo_match_iff ev combo onMac :
  KeyCombo.ctrlOrCmd combo = None \/ KeyCombo.ctrlOrCmd combo = Some false ->
  isKeyComboMatch toLowerCase ev combo onMac = true <->
    keyLabelTest toLowerCase ev combo = true /\
    KeyboardEvent.metaKey ev = KeyCombo.metaKey combo ?? false /\
    KeyboardEvent.ctrlKey ev = KeyCombo.ctrlKey combo ?? false /\
    KeyboardEvent.altKey ev = KeyCombo.altKey combo ?? false /\
    KeyboardEvent.shiftKey ev = KeyCombo.shiftKey combo ?? false.
Proof.
  intros Hc. apply truthy_false in Hc.
  rewrite isKeyComboMatch_split, andb_true_iff.
  rewrite (@keyless_plain_match ev (KeyCombo.withKey None combo) onMac
             eq_refl Hc).
  reflexivity.
Qed.

(** C3. When the combo names a key, the label comparison is on the
    lower-cased labels if the event has shift held and on the labels as
    they are otherwise. A failed comparison makes the matcher return false;
    a passed one leaves the result to the modifier test. *)
Theorem key_label_comparison ev combo comboKey onMac :
  KeyCombo.key combo = Some comboKey ->
  (KeyboardEvent.shiftKey ev = true ->
     (toLowerCase (KeyboardEvent.key ev) <> toLowerCase comboKey ->
        isKeyComboMatch toLowerCase ev combo onMac = false) /\
     (toLowerCase (KeyboardEvent.key ev) = toLowerCase comboKey ->
        isKeyComboMatch toLowerCase ev combo onMac
        = isKeyComboMatch toLowerCase ev (KeyCombo.withKey None combo)
            onMac)) /\
  (KeyboardEvent.shiftKey ev = false ->
     (KeyboardEvent.key ev <> comboKey ->
        isKeyComboMatch toLowerCase ev combo onMac = false) /\
     (KeyboardEvent.key ev = comboKey ->
        isKeyComboMatch toLowerCase ev combo onMac
        = isKeyComboMatch toLowerCase ev (KeyCombo.withKey None combo)
            onMac)).
Proof.
  intros Hk. rewrite isKeyComboMatch_split.
  unfold keyLabelTest. rewrite Hk.
  split; intros Hs; rewrite Hs; split; intros H.
  - apply String.eqb_neq in H. rewrite H. reflexivity.
  - apply String.eqb_eq in H. rewrite H. reflexivity.
  - apply String.eqb_neq in H. rewrite H. reflexivity.
  - apply String.eqb_eq in H. rewrite H. reflexivity.
Qed.

(** Under [ctrlOrCmd] the combo's flag for the platform's primary modifier
    is never read. *)
Lemma ctrlOrCmd_skips_metaKey_on_mac ev combo v :
  truthy (KeyCombo.ctrlOrCmd combo) = true ->
  isKeyComboMatch toLowerCase ev (KeyCombo.withMetaKey v combo) true
  = isKeyComboMatch toLowerCase ev combo true.
Proof.
  intros Hc. unfold isKeyComboMatch. destruct combo as [k co a c m s].
  simpl in *. rewrite Hc. reflexivity.
Qed.

Lemma ctrlOrCmd_skips_ctrlKey_on_pc ev combo v :
  truthy (KeyCombo.ctrlOrCmd combo) = true ->
  isKeyComboMatch toLowerCase ev (KeyCombo.withCtrlKey v combo) false
  = isKeyComboMatch toLowerCase ev combo false.
Proof.
  intros Hc. unfold isKeyComboMatch. destruct combo as [k co a c m s].
  simpl in *. rewrite Hc. reflexivity.
Qed.

(** C7, amended. With [ctrlOrCmd] set true the matcher ignores only the
    combo's flag for the primary modifier. On Mac the combo's [metaKey] is
    ignored, and a match requires the event's ctrl flag to equal the
    combo's [ctrlKey] (absent = false), hence to be false when [ctrlKey] is
    absent or false. Off Mac the combo's [ctrlKey] is ignored, and a match
    requires the event's meta flag to equal the combo's [metaKey]
    (absent = false), hence to be false when [metaKey] is absent or
    false. *)
Theorem ctrlOrCmd_ignores_only_primary_flag ev combo :
  KeyCombo.ctrlOrCmd combo = Some true ->
  ((forall v,
       isKeyComboMatch toLowerCase ev (KeyCombo.withMetaKey v combo) true
       = isKeyComboMatch toLowerCase ev combo true) /\
   (isKeyComboMatch toLowerCase ev combo true = true ->
      KeyboardEvent.ctrlKey ev = KeyCombo.ctrlKey combo ?? false) /\
   (KeyCombo.ctrlKey combo = None \/ KeyCombo.ctrlKey combo = Some false ->
      isKeyComboMatch toLowerCase ev combo true = true ->
      KeyboardEvent.ctrlKey ev = false)) /\
  ((forall v,
       isKeyComboMatch toLowerCase ev (KeyCombo.withCtrlKey v combo) false
       = isKeyComboMatch toLowerCase ev combo false) /\
   (isKeyComboMatch toLowerCase ev combo false = true ->
      KeyboardEvent.metaKey ev = KeyCombo.metaKey combo ?? false) /\
   (KeyCombo.metaKey combo = None \/ KeyCombo.metaKey combo = Some false ->
      isKeyComboMatch toLowerCase ev combo false = true ->
      KeyboardEvent.metaKey ev = false)).
Proof.
  intros Hc.
  destruct (@ctrlOrCmd_match_sides ev combo Hc) as [Hmac Hpc].
  apply truthy_true in Hc. split; split.
  - intros v. now apply ctrlOrCmd_skips_metaKey_on_mac.
  - split.
    + intros H. now apply Hmac in H.
    + intros Hn H. apply Hmac in H. destruct H as (_ & H & _).
      rewrite H. destruct Hn as [Hn|Hn]; rewrite Hn; reflexivity.
  - intros v. now apply ctrlOrCmd_skips_ctrlKey_on_pc.
  - split.
    + intros H. now apply Hpc in H.
    + intros Hn H. apply Hpc in H. destruct H as (_ & H & _).
      rewrite H. destruct Hn as [Hn|Hn]; rewrite Hn; reflexivity.
Qed.

(** With shift held and no [shiftKey: true] in the combo, the modifier
    test fails in each of its three branches. *)
Lemma shift_flag_mismatch ev combo onMac :
  KeyCombo.shiftKey combo ?? false = false ->
  KeyboardEvent.shiftKey ev = true ->
  isKeyComboMatch toLowerCase ev combo onMac = false.
Proof.
  intros Hc Hs. rewrite isKeyComboMatch_split.
  apply andb_false_iff. right.
  unfold isKeyComboMatch. destruct combo as [k co a c m s].
  simpl in *. rewrite Hc, Hs.
  change (true !== false) with true. rewrite !orb_true_r.
  destruct (truthy co), onMac; reflexivity.
Qed.

(** C8, amended. For a combo with only [key] set and an event with shift
    held the matcher returns false, whatever the labels. When the combo
    sets [shiftKey: true] besides its key, and nothing else, it returns
    true exactly when the labels are equal after lower-casing and the
    event's meta, ctrl and alt modifiers are not held. *)
Theorem only_key_combo_under_shift ev comboKey onMac :
  KeyboardEvent.shiftKey ev = true ->
  isKeyComboMatch toLowerCase ev (keyOnly comboKey) onMac = false /\
  (isKeyComboMatch toLowerCase ev (keyWithShift comboKey) onMac = true <->
     toLowerCase (KeyboardEvent.key ev) = toLowerCase comboKey /\
     KeyboardEvent.metaKey ev = false /\
     KeyboardEvent.ctrlKey ev = false /\
     KeyboardEvent.altKey ev = false).
Proof.
  intros Hs. split.
  - now apply shift_flag_mismatch.
  - rewrite isKeyComboMatch_split, andb_true_iff.
    rewrite (@keyless_plain_match ev
               (KeyCombo.withKey None (keyWithShift comboKey)) onMac
               eq_refl eq_refl).
    rewrite keyLabelTest_true. simpl. rewrite Hs. tauto.
Qed.

(** C9. The lower-case comparison made under shift does not relax the
    equality of the modifier flags: a combo whose [shiftKey] is absent or
    false matches no event that has shift held. In particular
    [{key: 'Escape'}] does not match an Escape press with shift held,
    whatever the other modifiers. *)
Theorem shift_leniency_keeps_flag_equality :
  (forall ev combo onMac,
      KeyCombo.shiftKey combo = None \/ KeyCombo.shiftKey combo = Some false ->
      KeyboardEvent.shiftKey ev = true ->
      isKeyComboMatch toLowerCase ev combo onMac = false) /\
  (forall alt ctrl meta onMac,
      isKeyComboMatch toLowerCase
        (KeyboardEvent.mk "Escape" alt ctrl meta true) (keyOnly "Escape")
        onMac = false).
Proof.
  split.
  - intros ev combo onMac Hc Hs. apply shift_flag_mismatch; [|assumption].
    destruct Hc as [Hc|Hc]; rewrite Hc; reflexivity.
  - intros alt ctrl meta onMac. now apply shift_flag_mismatch.
Qed.

(** C10. For a combo without a key the result does not depend on the
    event's key label: two events with the same four modifier flags get
    the same answer. So [{ctrlKey: true}] matches every key pressed with
    exactly Ctrl held. *)
Theorem keyless_combo_ignores_key_label :
  (forall ev1 ev2 combo onMac,
      KeyCombo.key combo = None ->
      KeyboardEvent.altKey ev1 = KeyboardEvent.altKey ev2 ->
      KeyboardEvent.ctrlKey ev1 = KeyboardEvent.ctrlKey ev2 ->
      KeyboardEvent.metaKey ev1 = KeyboardEvent.metaKey ev2 ->
      KeyboardEvent.shiftKey ev1 = KeyboardEvent.shiftKey ev2 ->
      isKeyComboMatch toLowerCase ev1 combo onMac
      = isKeyComboMatch toLowerCase ev2 combo onMac) /\
  (forall label onMac,
      isKeyComboMatch toLowerCase (ctrlPress label) ctrlOnly onMac = true).
Proof.
  split.
  - intros ev1 ev2 combo onMac Hk Ha Hc Hm Hs.
    unfold isKeyComboMatch. rewrite Hk, Ha, Hc, Hm, Hs. reflexivity.
  - intros label [|]; reflexivity.
Qed.

End MatcherProperties.

(** C1 at [{key: 'k', ctrlOrCmd: true}] on Mac: Cmd+k matches, with meta
    held. *)
Lemma ctrlOrCmd_match_requires_primary_modifier_witness :
  KeyCombo.ctrlOrCmd (keyWithCtrlOrCmd "k") = Some true /\
  isKeyComboMatch asciiToLowerCase (cmdPress "k") (keyWithCtrlOrCmd "k") true
  = true /\
  isKeyComboMatch asciiToLowerCase (ctrlPress "k") (keyWithCtrlOrCmd "k") true
  = false.
Proof.
  split; [reflexivity|]. split; [reflexivity|].
  apply (ctrlOrCmd_match_requires_primary_modifier asciiToLowerCase
           (ctrlPress "k") (keyWithCtrlOrCmd "k") eq_refl);
    reflexivity.
Defined.

(** C2 at [{key: 'Escape'}] and a bare Escape press. *)
Lemma plain_combo_match_iff_witness :
  isKeyComboMatch asciiToLowerCase (keyPress "Escape") (keyOnly "Escape") false
  = true.
Proof.
  apply (plain_combo_match_iff asciiToLowerCase (keyPress "Escape")
           (keyOnly "Escape") false (or_introl eq_refl)).
  repeat split.
Defined.

(** C3 at [{key: 'u', shiftKey: true}]: under shift 'U' passes the
    comparison and 'x' fails it. *)
Lemma key_label_comparison_witness :
  isKeyComboMatch asciiToLowerCase (shiftPress "x") (keyWithShift "u") false
  = false /\
  isKeyComboMatch asciiToLowerCase (shiftPress "U") (keyWithShift "u") false
  = isKeyComboMatch asciiToLowerCase (shiftPress "U")
      (KeyCombo.withKey None (keyWithShift "u")) false.
Proof.
  split.
  - refine (proj1 (proj1 (key_label_comparison asciiToLowerCase
                            (shiftPress "x") (keyWithShift "u") false eq_refl)
                         eq_refl) _).
    vm_compute. discriminate.
  - exact (proj2 (proj1 (key_label_comparison asciiToLowerCase
                           (shiftPress "U") (keyWithShift "u") false eq_refl)
                        eq_refl) eq_refl).
Defined.

(** C7 at [{key: 'k', ctrlOrCmd: true, metaKey: true}] on Mac: dropping the
    combo's [metaKey] changes nothing. *)
Lemma ctrlOrCmd_ignores_only_primary_flag_witness :
  KeyCombo.ctrlOrCmd (keyWithCtrlOrCmdAndMeta "k") = Some true /\
  isKeyComboMatch asciiToLowerCase (cmdPress "k")
    (KeyCombo.withMetaKey None (keyWithCtrlOrCmdAndMeta "k")) true
  = isKeyComboMatch asciiToLowerCase (cmdPress "k")
      (keyWithCtrlOrCmdAndMeta "k") true.
Proof.
  split; [reflexivity|].
  exact (proj1 (proj1 (ctrlOrCmd_ignores_only_primary_flag asciiToLowerCase
                         (cmdPress "k") (keyWithCtrlOrCmdAndMeta "k")
                         eq_refl)) None).
Defined.

(** The combo's [ctrlKey] is read under [ctrlOrCmd] on Mac:
    [{key: 'k', ctrlOrCmd: true, ctrlKey: true}] matches Cmd+Ctrl+k, an event
    with ctrl held, and does not match Cmd+k. Off Mac the same holds of
    [metaKey]. *)
Lemma ctrlOrCmd_other_flag_is_read :
  KeyCombo.ctrlOrCmd (keyWithCtrlOrCmdAndCtrl "k") = Some true /\
  isKeyComboMatch asciiToLowerCase (cmdCtrlPress "k")
    (keyWithCtrlOrCmdAndCtrl "k") true = true /\
  KeyboardEvent.ctrlKey (cmdCtrlPress "k") = true /\
  isKeyComboMatch asciiToLowerCase (cmdPress "k")
    (keyWithCtrlOrCmdAndCtrl "k") true = false /\
  KeyCombo.ctrlOrCmd (keyWithCtrlOrCmdAndMeta "k") = Some true /\
  isKeyComboMatch asciiToLowerCase (cmdCtrlPress "k")
    (keyWithCtrlOrCmdAndMeta "k") false = true /\
  KeyboardEvent.metaKey (cmdCtrlPress "k") = true.
Proof. repeat split. Qed.

(** C8 at [{key: 'u'}] and Shift+U. *)
Lemma only_key_combo_under_shift_witness :
  isKeyComboMatch asciiToLowerCase (shiftPress "U") (keyOnly "u") false
  = false.
Proof.
  exact (proj1 (only_key_combo_under_shift asciiToLowerCase (shiftPress "U")
                  "u" false eq_refl)).
Defined.

(** [{key: 'a'}] and Shift+A: the labels are equal after lower-casing, yet
    the matcher returns false, on either platform. *)
Lemma only_key_combo_rejects_shifted_event :
  KeyboardEvent.shiftKey (shiftPress "A") = true /\
  asciiToLowerCase (KeyboardEvent.key (shiftPress "A"))
  = asciiToLowerCase "a" /\
  isKeyComboMatch asciiToLowerCase (shiftPress "A") (keyOnly "a") false
  = false /\
  isKeyComboMatch asciiToLowerCase (shiftPress "A") (keyOnly "a") true
  = false.
Proof. repeat split. Qed.

(** C9 at [{key: 'Escape'}] and Shift+Escape. *)
Lemma shift_leniency_keeps_flag_equality_witness :
  isKeyComboMatch asciiToLowerCase (shiftPress "Escape") (keyOnly "Escape")
    true = false.
Proof.
  exact (proj1 (shift_leniency_keeps_flag_equality asciiToLowerCase)
           (shiftPress "Escape") (keyOnly "Escape") true
           (or_introl eq_refl) eq_refl).
Defined.

(** C10 at [{ctrlKey: true}]: Ctrl+a and Ctrl+Enter get the same answer. *)
Lemma keyless_combo_ignores_key_label_witness :
  isKeyComboMatch asciiToLowerCase (ctrlPress "a") ctrlOnly false
  = isKeyComboMatch asciiToLowerCase (ctrlPress "Enter") ctrlOnly false.
Proof.
  exact (proj1 (keyless_combo_ignores_key_label asciiToLowerCase)
           (ctrlPress "a") (ctrlPress "Enter") ctrlOnly false
           eq_refl eq_refl eq_refl eq_refl eq_refl).
Defined.

(** * Properties of the resolver *)

Section ResolverProperties.

Variable toLowerCase : string -> string.
Variable isMac : bool.

Local Abbreviation isMatching := (matches toLowerCase isMac).
Local Abbreviation noMatching := (noMatch toLowerCase isMac).
Local Abbreviation firstMatching := (firstMatch toLowerCase isMac).
Local Abbreviation resolve := (resolveAction toLowerCase isMac).

(** Every lookup of the manager is [getAction] on the getters of its
    context. *)
Lemma resolveAction_getAction this c ev :
  resolve this c ev
  = getAction toLowerCase isMac
      (map (bindingsGetter c) (bindingsProviders this)) ev.
Proof. destruct c; reflexivity. Qed.

Section Scan.

Variable T : Type.
Variable ev : KeyboardEvent.t.

(** [find] stops at the first matching binding, or finds none. *)
Lemma find_scan (bs : list (KeyBinding T)) :
  (find (isMatching ev) bs = None /\ noMatching ev bs) \/
  (exists b, find (isMatching ev) bs = Some b /\ firstMatching ev bs b).
Proof.
  induction bs as [|x bs IH]; simpl.
  - left. split; [reflexivity|constructor].
  - destruct (isMatching ev x) eqn:Hx.
    + right. exists x. split; [reflexivity|].
      exists [], bs. split; [reflexivity|].
      split; [constructor|assumption].
    + destruct IH as [[Hf Hn]|(b & Hf & l1 & l2 & Hbs & Hl1 & Hb)].
      * left. split; [assumption|]. constructor; assumption.
      * right. exists b. split; [assumption|].
        exists (x :: l1), l2. rewrite Hbs.
        split; [reflexivity|].
        split; [constructor; assumption|assumption].
Qed.

Lemma noMatch_app (l1 l2 : list (KeyBinding T)) :
  noMatching ev (l1 ++ l2) <-> noMatching ev l1 /\ noMatching ev l2.
Proof. apply Forall_app. Qed.

(** A list with a matching binding is not one without. *)
Lemma noMatch_excludes (bs : list (KeyBinding T)) (b : KeyBinding T) :
  noMatching ev bs -> In b bs -> isMatching ev b = true -> False.
Proof.
  intros Hn Hin Hb. unfold noMatch in Hn. rewrite Forall_forall in Hn.
  specialize (Hn b Hin). congruence.
Qed.

(** The first matching binding of a list is unique. *)
Lemma firstMatch_unique (bs : list (KeyBinding T)) (b b' : KeyBinding T) :
  firstMatching ev bs b -> firstMatching ev bs b' -> b = b'.
Proof.
  intros (l1 & l2 & H1 & Hn1 & Hb) (l1' & l2' & H2 & Hn2 & Hb').
  subst bs. revert l1' H2 Hn2.
  induction l1 as [|x l1 IH]; intros [|y l1'] H2 Hn2; simpl in H2.
  - congruence.
  - injection H2 as <- _. inversion Hn2; congruence.
  - injection H2 as -> _. inversion Hn1; congruence.
  - injection H2 as _ H2. inversion Hn1; inversion Hn2; subst.
    eapply IH; eassumption.
Qed.

End Scan.

Section Providers.

Variable c : UIContext.
Variable ev : KeyboardEvent.t.

Local Abbreviation silent := (silentProviders toLowerCase isMac c ev).

(** The loop of [getAction], provider by provider: either every provider
    is silent and the result is [None], or the result is the action of
    the first matching binding of the first provider that has one. *)
Lemma getAction_scan (ps : list IKeyBindingsProvider) :
  (silent ps /\
   getAction toLowerCase isMac (map (bindingsGetter c) ps) ev = None) \/
  (exists pre p post b,
      ps = pre ++ p :: post /\ silent pre /\
      firstMatching ev (bindingsFor c p) b /\
      getAction toLowerCase isMac (map (bindingsGetter c) ps) ev
      = Some (action b)).
Proof.
  induction ps as [|q ps IH]; simpl.
  - left. split; [constructor|reflexivity].
  - change (fun it => isKeyComboMatch toLowerCase ev (keyCombo it) isMac)
      with (isMatching (T:=ActionOf c) ev).
    destruct (find_scan ev (bindingsGetter c q tt))
      as [[Hf Hn]|(b & Hf & Hb)]; rewrite Hf.
    + destruct IH as [[Hs Hg]|(pre & p & post & b & Hps & Hs & Hb & Hg)].
      * left. split; [constructor; assumption|assumption].
      * right. exists (q :: pre), p, post, b. subst ps.
        split; [reflexivity|]. split; [constructor; assumption|].
        split; assumption.
    + right. exists [], q, ps, b.
      split; [reflexivity|]. split; [constructor|].
      split; [exact Hb|reflexivity].
Qed.

(** The provider that answers is determined by the silent prefix. *)
Lemma getAction_at pre p post b :
  silent pre -> firstMatching ev (bindingsFor c p) b ->
  getAction toLowerCase isMac
    (map (bindingsGetter c) (pre ++ p :: post)) ev = Some (action b).
Proof.
  intros Hs Hb. induction pre as [|q pre IH]; simpl.
  - change (fun it => isKeyComboMatch toLowerCase ev (keyCombo it) isMac)
      with (isMatching (T:=ActionOf c) ev).
    destruct (find_scan ev (bindingsGetter c p tt))
      as [[Hf Hn]|(b' & Hf & Hb')]; rewrite Hf.
    + exfalso. destruct Hb as (l1 & l2 & Hbs & _ & Hm).
      eapply noMatch_excludes; [exact Hn| |exact Hm].
      unfold bindingsFor in Hbs. rewrite Hbs.
      apply in_elt.
    + f_equal. f_equal. eapply firstMatch_unique; eassumption.
  - change (fun it => isKeyComboMatch toLowerCase ev (keyCombo it) isMac)
      with (isMatching (T:=ActionOf c) ev).
    inversion Hs as [|? ? Hq Hs']; subst.
    destruct (find_scan ev (bindingsGetter c q tt))
      as [[Hf Hn]|(b' & Hf & l1 & l2 & Hbs & _ & Hm)]; rewrite Hf.
    + apply IH. assumption.
    + exfalso. eapply noMatch_excludes; [exact Hq| |exact Hm].
      unfold bindingsFor. rewrite Hbs. apply in_elt.
Qed.

(** A list with a matching binding has a first one. *)
Lemma hasMatch_firstMatch (T : Type) (bs : list (KeyBinding T)) :
  hasMatch toLowerCase isMac ev bs -> exists b, firstMatching ev bs b.
Proof.
  intros Hex. destruct (find_scan ev bs) as [[_ Hn]|(b & _ & Hb)].
  - exfalso. apply Exists_exists in Hex. destruct Hex as (b & Hin & Hb).
    eapply noMatch_excludes; eassumption.
  - exists b. assumption.
Qed.

Lemma firstMatch_In (T : Type) (bs : list (KeyBinding T)) b :
  firstMatching ev bs b -> In b bs /\ isMatching ev b = true.
Proof.
  intros (l1 & l2 & -> & _ & Hb). split; [apply in_elt|assumption].
Qed.

(** C4, amended. Let P1 come before P2 in the manager's provider
    sequence, and let the binding lists of both for the context contain a
    binding that matches the event. Then the resolver returns the action
    of the first matching binding of the first provider that has one, and
    that provider is P1 or one before P1. When no provider before P1 has
    a matching binding, the resolver returns the action of the first
    matching binding of P1. *)
Theorem earlier_provider_has_precedence this l1 P1 l2 P2 l3 :
  bindingsProviders this = l1 ++ P1 :: l2 ++ P2 :: l3 ->
  hasMatch toLowerCase isMac ev (bindingsFor c P1) ->
  hasMatch toLowerCase isMac ev (bindingsFor c P2) ->
  (exists pre p post b,
      l1 ++ [P1] = pre ++ p :: post /\ silent pre /\
      firstMatching ev (bindingsFor c p) b /\
      resolve this c ev = Some (action b)) /\
  (silent l1 ->
   exists b,
     firstMatching ev (bindingsFor c P1) b /\
     resolve this c ev = Some (action b)).
Proof.
  intros Hps H1 _. rewrite resolveAction_getAction, Hps.
  destruct (hasMatch_firstMatch H1) as [b1 Hb1].
  assert (Hsilent : silent l1 ->
            exists b, firstMatching ev (bindingsFor c P1) b /\
              getAction toLowerCase isMac
                (map (bindingsGetter c) (l1 ++ P1 :: l2 ++ P2 :: l3)) ev
              = Some (action b)).
  { intros Hs. exists b1. split; [assumption|].
    apply getAction_at; assumption. }
  split; [|assumption].
  destruct (getAction_scan l1)
    as [[Hs _]|(pre & p & post & b & Hl1 & Hs & Hb & _)].
  - destruct (Hsilent Hs) as (b & Hb & Hg).
    exists l1, P1, [], b. repeat (split; [assumption || reflexivity|]).
    assumption.
  - exists pre, p, (post ++ [P1]), b. subst l1.
    split; [rewrite <- app_assoc; reflexivity|].
    split; [assumption|]. split; [assumption|].
    rewrite <- app_assoc. simpl. apply getAction_at; assumption.
Qed.

(** C5, amended. Let a provider's binding list hold two bindings that both
    match the event, and let no provider before it in the sequence have a
    matching binding. Then the resolver returns the action of the first
    binding of the list that matches; it is the earlier of the two when no
    binding listed before it matches. *)
Theorem first_listed_binding_wins pre p post l1 b1 l2 b2 l3 :
  silent pre ->
  bindingsFor c p = l1 ++ b1 :: l2 ++ b2 :: l3 ->
  isMatching ev b1 = true ->
  isMatching ev b2 = true ->
  (exists b,
      firstMatching ev (bindingsFor c p) b /\
      resolve (mkManager (pre ++ p :: post)) c ev = Some (action b)) /\
  (noMatching ev l1 ->
   resolve (mkManager (pre ++ p :: post)) c ev = Some (action b1)).
Proof.
  intros Hs Hbs Hb1 _. rewrite resolveAction_getAction. simpl.
  assert (Hex : hasMatch toLowerCase isMac ev (bindingsFor c p)).
  { apply Exists_exists. exists b1. split; [|assumption].
    rewrite Hbs. apply in_elt. }
  split.
  - destruct (hasMatch_firstMatch Hex) as [b Hb]. exists b.
    split; [assumption|]. apply getAction_at; assumption.
  - intros Hn. apply getAction_at; [assumption|].
    exists l1, (l2 ++ b2 :: l3). split; [assumption|].
    split; assumption.
Qed.

(** C6. The resolver returns [None], the value [undefined] that no
    action equals, exactly when no binding of any provider's list for
    the context matches the event. *)
Theorem undefined_iff_no_match this :
  resolve this c ev = None <->
  (forall p, In p (bindingsProviders this) ->
   forall b, In b (bindingsFor c p) -> isMatching ev b = false).
Proof.
  rewrite resolveAction_getAction.
  destruct (getAction_scan (bindingsProviders this))
    as [[Hs Hg]|(pre & p & post & b & Hps & _ & Hb & Hg)]; rewrite Hg.
  - split; [|reflexivity]. intros _ p Hp b Hb.
    unfold silentProviders in Hs. rewrite Forall_forall in Hs.
    specialize (Hs p Hp). unfold noMatch in Hs.
    rewrite Forall_forall in Hs. apply Hs. assumption.
  - split; [discriminate|]. intros H. exfalso.
    apply firstMatch_In in Hb. destruct Hb as [Hin Hb].
    rewrite (H p) in Hb; [discriminate| |assumption].
    rewrite Hps. apply in_elt.
Qed.

End Providers.

End ResolverProperties.

(** C4 at the sequence [[boldThenItalics; sendOnEnter; newLineOnEnter]]: the
    first provider does not bind Enter, the other two do, and the resolver
    answers from the earlier of them. *)
Lemma earlier_provider_has_precedence_witness :
  exists b,
    firstMatch asciiToLowerCase false (keyPress "Enter")
      (bindingsFor MessageComposerCtx sendOnEnter) b /\
    resolveAction asciiToLowerCase false
      (mkManager [boldThenItalics; sendOnEnter; newLineOnEnter])
      MessageComposerCtx (keyPress "Enter")
    = Some (action b).
Proof.
  refine (proj2 (@earlier_provider_has_precedence asciiToLowerCase false
                   MessageComposerCtx (keyPress "Enter")
                   (mkManager [boldThenItalics; sendOnEnter; newLineOnEnter])
                   [boldThenItalics] sendOnEnter [] newLineOnEnter []
                   eq_refl _ _) _).
  - apply Exists_cons_hd. reflexivity.
  - apply Exists_cons_hd. reflexivity.
  - repeat constructor.
Defined.

(** Three providers that all bind Enter: the pair taken from the second and
    the third satisfies the premises, yet the resolver returns [Send], the
    action of the first provider, which no binding of the second carries. *)
Lemma later_pair_does_not_decide :
  bindingsProviders (mkManager [sendOnEnter; newLineOnEnter; undoOnEnter])
  = [sendOnEnter] ++ newLineOnEnter :: [] ++ undoOnEnter :: [] /\
  hasMatch asciiToLowerCase false (keyPress "Enter")
    (bindingsFor MessageComposerCtx newLineOnEnter) /\
  hasMatch asciiToLowerCase false (keyPress "Enter")
    (bindingsFor MessageComposerCtx undoOnEnter) /\
  resolveAction asciiToLowerCase false
    (mkManager [sendOnEnter; newLineOnEnter; undoOnEnter]) MessageComposerCtx
    (keyPress "Enter")
  = Some Send /\
  ~ (exists b,
        In b (bindingsFor MessageComposerCtx newLineOnEnter) /\
        resolveAction asciiToLowerCase false
          (mkManager [sendOnEnter; newLineOnEnter; undoOnEnter])
          MessageComposerCtx (keyPress "Enter")
        = Some (action b)).
Proof.
  split; [reflexivity|].
  split; [apply Exists_cons_hd; reflexivity|].
  split; [apply Exists_cons_hd; reflexivity|].
  split; [reflexivity|].
  intros (b & [<-|[]] & Hb). discriminate Hb.
Qed.

(** C5 at a provider that binds Cmd+b twice, on Mac, placed after a provider
    that does not bind it: the first-listed binding, [FormatBold], is the
    answer. *)
Lemma first_listed_binding_wins_witness :
  resolveAction asciiToLowerCase true
    (mkManager [sendOnEnter; boldThenItalics; undoOnEnter])
    MessageComposerCtx (cmdPress "b")
  = Some FormatBold.
Proof.
  refine (proj2 (@first_listed_binding_wins asciiToLowerCase true
                   MessageComposerCtx (cmdPress "b")
                   [sendOnEnter] boldThenItalics [undoOnEnter]
                   [] (mkKeyBinding FormatBold (keyWithCtrlOrCmd "b"))
                   [] (mkKeyBinding FormatItalics (keyWithCtrlOrCmd "b")) []
                   _ eq_refl eq_refl eq_refl) _);
    repeat constructor.
Defined.

(** Two bindings of one list that both match do not decide the answer by
    themselves. After a provider that binds Enter to [Send], the list binding
    Enter to [NewLine] and [EditUndo] is never reached: the resolver returns
    [Send], which no binding of that list carries. And in a single list
    binding Enter to [Send], [NewLine] and [EditUndo], the pair of the last
    two matches, yet the answer is [Send], not [NewLine], the action of the
    earlier of the pair. *)
Lemma earlier_match_preempts_listed_pair :
  (bindingsFor MessageComposerCtx newLineThenUndoOnEnter
   = [] ++ mkKeyBinding NewLine (keyOnly "Enter")
        :: [] ++ mkKeyBinding EditUndo (keyOnly "Enter") :: [] /\
   matches asciiToLowerCase false (keyPress "Enter")
     (mkKeyBinding NewLine (keyOnly "Enter")) = true /\
   matches asciiToLowerCase false (keyPress "Enter")
     (mkKeyBinding EditUndo (keyOnly "Enter")) = true /\
   resolveAction asciiToLowerCase false
     (mkManager [sendOnEnter; newLineThenUndoOnEnter]) MessageComposerCtx
     (keyPress "Enter")
   = Some Send /\
   ~ (exists b,
         In b (bindingsFor MessageComposerCtx newLineThenUndoOnEnter) /\
         resolveAction asciiToLowerCase false
           (mkManager [sendOnEnter; newLineThenUndoOnEnter])
           MessageComposerCtx (keyPress "Enter")
         = Some (action b))) /\
  (bindingsFor MessageComposerCtx sendNewLineUndoOnEnter
   = [mkKeyBinding Send (keyOnly "Enter")]
     ++ mkKeyBinding NewLine (keyOnly "Enter")
        :: [] ++ mkKeyBinding EditUndo (keyOnly "Enter") :: [] /\
   resolveAction asciiToLowerCase false
     (mkManager [sendNewLineUndoOnEnter]) MessageComposerCtx
     (keyPress "Enter")
   = Some Send /\
   resolveAction asciiToLowerCase false
     (mkManager [sendNewLineUndoOnEnter]) MessageComposerCtx
     (keyPress "Enter")
   <> Some (action (mkKeyBinding NewLine (keyOnly "Enter")))).
Proof.
  split.
  - repeat (split; [reflexivity|]).
    intros (b & [<-|[<-|[]]] & Hb); discriminate Hb.
  - repeat (split; [reflexivity|]). discriminate.
Qed.

(** The resolver on a sequence without a matching binding, and on one with
    a match only in its last provider. *)
Example resolve_no_match :
  resolveAction asciiToLowerCase false
    (mkManager [sendOnEnter; boldThenItalics]) MessageComposerCtx
    (keyPress "Escape")
  = None.
Proof. reflexivity. Qed.

Example resolve_falls_through :
  resolveAction asciiToLowerCase false
    (mkManager [sendOnEnter; boldThenItalics]) MessageComposerCtx
    (ctrlPress "b")
  = Some FormatBold.
Proof. reflexivity. Qed.

(** C6 at a sequence in which nothing binds Escape. *)
Lemma undefined_iff_no_match_witness :
  resolveAction asciiToLowerCase false
    (mkManager [sendOnEnter; boldThenItalics]) MessageComposerCtx
    (keyPress "Escape")
  = None.
Proof.
  apply (proj2 (undefined_iff_no_match asciiToLowerCase false
                  MessageComposerCtx (keyPress "Escape")
                  (mkManager [sendOnEnter; boldThenItalics]))).
  intros p [<-|[<-|[]]] b; simpl.
  - intros [<-|[]]. reflexivity.
  - intros [<-|[<-|[]]]; reflexivity.
Defined.

(** * Further properties of the matcher *)

Section MatcherLaws.

Variable toLowerCase : string -> string.

(** The matcher reads the combo's flags only through their defaults. *)
Lemma isKeyComboMatch_keyless_flags ev combo onMac :
  isKeyComboMatch toLowerCase ev (KeyCombo.withKey None combo) onMac = true <->
  (if truthy (KeyCombo.ctrlOrCmd combo)
   then if onMac
        then KeyboardEvent.metaKey ev = true /\
             KeyboardEvent.ctrlKey ev = KeyCombo.ctrlKey combo ?? false
        else KeyboardEvent.ctrlKey ev = true /\
             KeyboardEvent.metaKey ev = KeyCombo.metaKey combo ?? false
   else KeyboardEvent.metaKey ev = KeyCombo.metaKey combo ?? false /\
        KeyboardEvent.ctrlKey ev = KeyCombo.ctrlKey combo ?? false) /\
  KeyboardEvent.altKey ev = KeyCombo.altKey combo ?? false /\
  KeyboardEvent.shiftKey ev = KeyCombo.shiftKey combo ?? false.
Proof.
  destruct (truthy (KeyCombo.ctrlOrCmd combo)) eqn:Hc.
  - destruct onMac.
    + rewrite (@keyless_ctrlOrCmd_match_mac toLowerCase ev
                 (KeyCombo.withKey None combo) eq_refl Hc).
      simpl. tauto.
    + rewrite (@keyless_ctrlOrCmd_match_pc toLowerCase ev
                 (KeyCombo.withKey None combo) eq_refl Hc).
      simpl. tauto.
  - rewrite (@keyless_plain_match toLowerCase ev
               (KeyCombo.withKey None combo) onMac eq_refl Hc).
    simpl. tauto.
Qed.

(** X1. With [ctrlOrCmd] set true the matcher returns true exactly when the
    key-label test passes and, on Mac, meta is held and ctrl, alt and shift
    equal the combo's [ctrlKey], [altKey], [shiftKey] (absent = false); off
    Mac, ctrl is held and meta, alt and shift equal the combo's [metaKey],
    [altKey], [shiftKey]. *)
Theorem ctrlOrCmd_match_iff ev combo :
  KeyCombo.ctrlOrCmd combo = Some true ->
  (isKeyComboMatch toLowerCase ev combo true = true <->
     keyLabelTest toLowerCase ev combo = true /\
     KeyboardEvent.metaKey ev = true /\
     KeyboardEvent.ctrlKey ev = KeyCombo.ctrlKey combo ?? false /\
     KeyboardEvent.altKey ev = KeyCombo.altKey combo ?? false /\
     KeyboardEvent.shiftKey ev = KeyCombo.shiftKey combo ?? false) /\
  (isKeyComboMatch toLowerCase ev combo false = true <->
     keyLabelTest toLowerCase ev combo = true /\
     KeyboardEvent.ctrlKey ev = true /\
     KeyboardEvent.metaKey ev = KeyCombo.metaKey combo ?? false /\
     KeyboardEvent.altKey ev = KeyCombo.altKey combo ?? false /\
     KeyboardEvent.shiftKey ev = KeyCombo.shiftKey combo ?? false).
Proof.
  intros Hc. apply truthy_true in Hc.
  split; rewrite isKeyComboMatch_split, andb_true_iff.
  - rewrite (@keyless_ctrlOrCmd_match_mac toLowerCase ev
               (KeyCombo.withKey None combo) eq_refl Hc).
    reflexivity.
  - rewrite (@keyless_ctrlOrCmd_match_pc toLowerCase ev
               (KeyCombo.withKey None combo) eq_refl Hc).
    reflexivity.
Qed.

(** X2. A combo whose [ctrlOrCmd] is unset or false gets the same answer on
    Mac and off Mac. *)
Theorem plain_combo_platform_independent ev combo :
  KeyCombo.ctrlOrCmd combo = None \/ KeyCombo.ctrlOrCmd combo = Some false ->
  isKeyComboMatch toLowerCase ev combo true
  = isKeyComboMatch toLowerCase ev combo false.
Proof.
  intros Hc. apply truthy_false in Hc.
  unfold isKeyComboMatch. rewrite Hc. reflexivity.
Qed.

(** X3. The combo [{}] matches an event, whatever its key, exactly when none
    of the four modifiers is held. *)
Theorem empty_combo_matches_unmodified_events ev onMac :
  isKeyComboMatch toLowerCase ev KeyCombo.empty onMac = true <->
  KeyboardEvent.metaKey ev = false /\
  KeyboardEvent.ctrlKey ev = false /\
  KeyboardEvent.altKey ev = false /\
  KeyboardEvent.shiftKey ev = false.
Proof.
  apply (@keyless_plain_match toLowerCase ev KeyCombo.empty onMac
           eq_refl eq_refl).
Qed.

(** X4. [ctrlOrCmd: true] stands for the flag of the platform's primary
    modifier: on Mac the combo matches the same events as the combo with
    [ctrlOrCmd] removed and [metaKey: true], off Mac as the one with
    [ctrlOrCmd] removed and [ctrlKey: true]. *)
Theorem ctrlOrCmd_is_primary_modifier_flag ev combo :
  KeyCombo.ctrlOrCmd combo = Some true ->
  isKeyComboMatch toLowerCase ev combo true
  = isKeyComboMatch toLowerCase ev
      (KeyCombo.withCtrlOrCmd None (KeyCombo.withMetaKey (Some true) combo))
      true /\
  isKeyComboMatch toLowerCase ev combo false
  = isKeyComboMatch toLowerCase ev
      (KeyCombo.withCtrlOrCmd None (KeyCombo.withCtrlKey (Some true) combo))
      false.
Proof.
  intros Hc. unfold isKeyComboMatch. destruct combo as [k co a c m s].
  simpl in *. subst co. simpl.
  destruct ev as [ek ea ec em es]; simpl.
  split.
  - destruct em; [|rewrite !orb_true_l; reflexivity]. reflexivity.
  - destruct ec; simpl.
    + destruct (em !== m ?? false); reflexivity.
    + rewrite !orb_true_r, !orb_true_l. reflexivity.
Qed.

(** X5. The matcher reads a combo only through its key, the truthiness of
    [ctrlOrCmd] and the four flags with absent counted as false: two combos
    that agree on these match the same events. So [{altKey: false}] and
    [{ctrlOrCmd: false}] behave as [{}]. *)
Theorem combo_read_through_defaults ev combo1 combo2 onMac :
  KeyCombo.key combo1 = KeyCombo.key combo2 ->
  truthy (KeyCombo.ctrlOrCmd combo1) = truthy (KeyCombo.ctrlOrCmd combo2) ->
  KeyCombo.altKey combo1 ?? false = KeyCombo.altKey combo2 ?? false ->
  KeyCombo.ctrlKey combo1 ?? false = KeyCombo.ctrlKey combo2 ?? false ->
  KeyCombo.metaKey combo1 ?? false = KeyCombo.metaKey combo2 ?? false ->
  KeyCombo.shiftKey combo1 ?? false = KeyCombo.shiftKey combo2 ?? false ->
  isKeyComboMatch toLowerCase ev combo1 onMac
  = isKeyComboMatch toLowerCase ev combo2 onMac.
Proof.
  intros Hk Hc Ha Hct Hm Hs. unfold isKeyComboMatch.
  rewrite Hk, Hc, Ha, Hct, Hm, Hs. reflexivity.
Qed.

(** Each branch of the modifier test fixes all four flags of the event. *)
Lemma strict_modifiers ev1 ev2 combo onMac :
  isKeyComboMatch toLowerCase ev1 combo onMac = true ->
  isKeyComboMatch toLowerCase ev2 combo onMac = true ->
  KeyboardEvent.metaKey ev1 = KeyboardEvent.metaKey ev2 /\
  KeyboardEvent.ctrlKey ev1 = KeyboardEvent.ctrlKey ev2 /\
  KeyboardEvent.altKey ev1 = KeyboardEvent.altKey ev2 /\
  KeyboardEvent.shiftKey ev1 = KeyboardEvent.shiftKey ev2.
Proof.
  intros H1 H2.
  apply match_then_modifiers_match, isKeyComboMatch_keyless_flags in H1.
  apply match_then_modifiers_match, isKeyComboMatch_keyless_flags in H2.
  destruct H1 as (F1 & A1 & S1), H2 as (F2 & A2 & S2).
  destruct (truthy (KeyCombo.ctrlOrCmd combo)); [destruct onMac|];
    destruct F1 as [M1 C1], F2 as [M2 C2];
    repeat split; congruence.
Qed.

(** X6. The combo is evaluated strictly: two events that the same combo
    matches on the same platform hold exactly the same modifiers. *)
Theorem matched_events_agree_on_modifiers ev1 ev2 combo onMac :
  isKeyComboMatch toLowerCase ev1 combo onMac = true ->
  isKeyComboMatch toLowerCase ev2 combo onMac = true ->
  KeyboardEvent.metaKey ev1 = KeyboardEvent.metaKey ev2 /\
  KeyboardEvent.ctrlKey ev1 = KeyboardEvent.ctrlKey ev2 /\
  KeyboardEvent.altKey ev1 = KeyboardEvent.altKey ev2 /\
  KeyboardEvent.shiftKey ev1 = KeyboardEvent.shiftKey ev2.
Proof.
  intros H1 H2. eapply strict_modifiers; eassumption.
Qed.

(** X7. A combo that names a key and whose [shiftKey] is absent or false
    matches at most one event on a platform: two events it matches are
    equal, key label included. *)
Theorem keyed_unshifted_combo_matches_one_event ev1 ev2 combo comboKey onMac :
  KeyCombo.key combo = Some comboKey ->
  KeyCombo.shiftKey combo ?? false = false ->
  isKeyComboMatch toLowerCase ev1 combo onMac = true ->
  isKeyComboMatch toLowerCase ev2 combo onMac = true ->
  ev1 = ev2.
Proof.
  intros Hk Hs H1 H2.
  destruct (@strict_modifiers _ _ _ _ H1 H2)
    as (Hm & Hc & Ha & Hsh).
  assert (Hkey : forall ev, isKeyComboMatch toLowerCase ev combo onMac = true ->
                            KeyboardEvent.key ev = comboKey).
  { intros ev H. pose proof H as H'.
    apply match_then_modifiers_match, isKeyComboMatch_keyless_flags in H'.
    destruct H' as (_ & _ & Hev). simpl in Hev. rewrite Hs in Hev.
    rewrite isKeyComboMatch_split, andb_true_iff in H. destruct H as [H _].
    apply keyLabelTest_true in H. rewrite Hk, Hev in H. exact H. }
  apply Hkey in H1. apply Hkey in H2.
  destruct ev1, ev2; simpl in *. congruence.
Qed.

(** X8. No combo is dead: whatever its fields, conflicting flags included,
    some event matches it on each platform. *)
Theorem every_combo_is_matchable combo onMac :
  exists ev, isKeyComboMatch toLowerCase ev combo onMac = true.
Proof.
  exists (KeyboardEvent.mk
            (KeyCombo.key combo ?? "")
            (KeyCombo.altKey combo ?? false)
            (if truthy (KeyCombo.ctrlOrCmd combo) && negb onMac then true
             else KeyCombo.ctrlKey combo ?? false)
            (if truthy (KeyCombo.ctrlOrCmd combo) && onMac then true
             else KeyCombo.metaKey combo ?? false)
            (KeyCombo.shiftKey combo ?? false)).
  rewrite isKeyComboMatch_split, andb_true_iff. split.
  - unfold keyLabelTest. simpl.
    destruct (KeyCombo.key combo) as [k|]; [|reflexivity]. simpl.
    destruct (KeyCombo.shiftKey combo ?? false); apply String.eqb_refl.
  - apply isKeyComboMatch_keyless_flags. simpl.
    destruct (truthy (KeyCombo.ctrlOrCmd combo)), onMac; simpl; auto.
Qed.

(** X9. For an event with shift held only the lower-cased labels count: the
    event's key label, and likewise the combo's key, may be replaced by any
    label with the same lower-case form without changing the answer. *)
Theorem shifted_labels_read_through_lower_case ev combo k1 k2 onMac :
  KeyboardEvent.shiftKey ev = true ->
  toLowerCase k1 = toLowerCase k2 ->
  isKeyComboMatch toLowerCase (KeyboardEvent.withKey k1 ev) combo onMac
  = isKeyComboMatch toLowerCase (KeyboardEvent.withKey k2 ev) combo onMac /\
  isKeyComboMatch toLowerCase ev (KeyCombo.withKey (Some k1) combo) onMac
  = isKeyComboMatch toLowerCase ev (KeyCombo.withKey (Some k2) combo) onMac.
Proof.
  intros Hs Hk. unfold isKeyComboMatch. simpl. rewrite Hs, Hk.
  split; reflexivity.
Qed.

End MatcherLaws.

(** X1 at [{key: 'k', ctrlOrCmd: true}] and Ctrl+k off Mac. *)
Lemma ctrlOrCmd_match_iff_witness :
  isKeyComboMatch asciiToLowerCase (ctrlPress "k") (keyWithCtrlOrCmd "k")
    false = true.
Proof.
  apply (proj2 (ctrlOrCmd_match_iff asciiToLowerCase (ctrlPress "k")
                  (keyWithCtrlOrCmd "k") eq_refl)).
  repeat split.
Defined.

(** X2 at [{key: 'Escape'}] and a bare Escape press. *)
Lemma plain_combo_platform_independent_witness :
  isKeyComboMatch asciiToLowerCase (keyPress "Escape") (keyOnly "Escape") true
  = isKeyComboMatch asciiToLowerCase (keyPress "Escape") (keyOnly "Escape")
      false.
Proof.
  exact (plain_combo_platform_independent asciiToLowerCase
           (keyPress "Escape") (keyOnly "Escape") (or_introl eq_refl)).
Defined.

(** X4 at [{key: 'k', ctrlOrCmd: true}] and Cmd+k. *)
Lemma ctrlOrCmd_is_primary_modifier_flag_witness :
  isKeyComboMatch asciiToLowerCase (cmdPress "k") (keyWithCtrlOrCmd "k") true
  = isKeyComboMatch asciiToLowerCase (cmdPress "k")
      (KeyCombo.withCtrlOrCmd None
         (KeyCombo.withMetaKey (Some true) (keyWithCtrlOrCmd "k")))
      true.
Proof.
  exact (proj1 (ctrlOrCmd_is_primary_modifier_flag asciiToLowerCase
                  (cmdPress "k") (keyWithCtrlOrCmd "k") eq_refl)).
Defined.

(** X5 at [{}] and the combo with every flag spelled out as false. *)
Lemma combo_read_through_defaults_witness :
  isKeyComboMatch asciiToLowerCase (keyPress "a") KeyCombo.empty false
  = isKeyComboMatch asciiToLowerCase (keyPress "a") allFlagsFalse false.
Proof.
  exact (combo_read_through_defaults asciiToLowerCase (keyPress "a")
           KeyCombo.empty allFlagsFalse false
           eq_refl eq_refl eq_refl eq_refl eq_refl eq_refl).
Defined.

(** X6 at [{ctrlKey: true}], which matches Ctrl+a and Ctrl+Enter. *)
Lemma matched_events_agree_on_modifiers_witness :
  KeyboardEvent.metaKey (ctrlPress "a")
  = KeyboardEvent.metaKey (ctrlPress "Enter") /\
  KeyboardEvent.ctrlKey (ctrlPress "a")
  = KeyboardEvent.ctrlKey (ctrlPress "Enter") /\
  KeyboardEvent.altKey (ctrlPress "a")
  = KeyboardEvent.altKey (ctrlPress "Enter") /\
  KeyboardEvent.shiftKey (ctrlPress "a")
  = KeyboardEvent.shiftKey (ctrlPress "Enter").
Proof.
  exact (matched_events_agree_on_modifiers asciiToLowerCase
           (ctrlPress "a") (ctrlPress "Enter") ctrlOnly false
           eq_refl eq_refl).
Defined.

(** X7 at [{key: 'k', ctrlOrCmd: true}] on Mac, matched by Cmd+k. *)
Lemma keyed_unshifted_combo_matches_one_event_witness :
  cmdPress "k" = KeyboardEvent.mk "k" false false true false.
Proof.
  exact (keyed_unshifted_combo_matches_one_event asciiToLowerCase
           (cmdPress "k") (KeyboardEvent.mk "k" false false true false)
           (keyWithCtrlOrCmd "k") true eq_refl eq_refl eq_refl eq_refl).
Defined.

(** X9 at Shift+U and Shift+u against [{key: 'u', shiftKey: true}]. *)
Lemma shifted_labels_read_through_lower_case_witness :
  isKeyComboMatch asciiToLowerCase
    (KeyboardEvent.withKey "U" (shiftPress "u")) (keyWithShift "u") false
  = isKeyComboMatch asciiToLowerCase
      (KeyboardEvent.withKey "u" (shiftPress "u")) (keyWithShift "u") false.
Proof.
  exact (proj1 (shifted_labels_read_through_lower_case asciiToLowerCase
                  (shiftPress "u") (keyWithShift "u") "U" "u" false
                  eq_refl eq_refl)).
Defined.

(** * Further properties of the resolver *)

Section ResolverLaws.

Variable toLowerCase : string -> string.
Variable isMac : bool.

(** [find] on a concatenation searches the left list first. *)
Lemma find_append (A : Type) (test : A -> bool) (front back : list A) :
  find test (front ++ back)
  = match find test front with
    | None => find test back
    | found => found
    end.
Proof.
  induction front as [|x front IH]; simpl; [reflexivity|].
  destruct (test x); [reflexivity|assumption].
Qed.

Lemma getAction_append (T : Type) (gs1 gs2 : list (KeyBindingGetter T)) ev :
  getAction toLowerCase isMac (gs1 ++ gs2) ev
  = match getAction toLowerCase isMac gs1 ev with
    | Some a => Some a
    | None => getAction toLowerCase isMac gs2 ev
    end.
Proof.
  induction gs1 as [|g gs1 IH]; simpl; [reflexivity|].
  destruct (find _ (g tt)); [reflexivity|assumption].
Qed.

(** The loop over the getters is one search through their lists laid end to
    end. *)
Lemma getAction_flat (T : Type) (gs : list (KeyBindingGetter T)) ev :
  getAction toLowerCase isMac gs ev
  = option_map (@action T)
      (find (matches toLowerCase isMac ev) (flat_map (fun g => g tt) gs)).
Proof.
  induction gs as [|g gs IH]; simpl; [reflexivity|].
  rewrite find_append.
  change (fun it => isKeyComboMatch toLowerCase ev (keyCombo it) isMac)
    with (matches toLowerCase isMac (T:=T) ev).
  destruct (find (matches toLowerCase isMac ev) (g tt)); [reflexivity|].
  assumption.
Qed.

Lemma resolveAction_flat this c ev :
  resolveAction toLowerCase isMac this c ev
  = option_map (@action (ActionOf c))
      (find (matches toLowerCase isMac ev)
            (flat_map (bindingsFor c) (bindingsProviders this))).
Proof.
  rewrite resolveAction_getAction, getAction_flat.
  rewrite flat_map_concat_map, map_map, <- flat_map_concat_map.
  reflexivity.
Qed.

(** A list without a matching binding is searched in vain. *)
Lemma noMatch_find (T : Type) ev (bs : list (KeyBinding T)) :
  noMatch toLowerCase isMac ev bs ->
  find (matches toLowerCase isMac ev) bs = None.
Proof.
  intros Hn. induction Hn as [|b bs Hb _ IH]; simpl; [reflexivity|].
  rewrite Hb. assumption.
Qed.

(** X10. Resolution over a concatenated provider sequence is a left-biased
    choice: the answer of the first part if it has one, otherwise the answer
    of the second part. Providers added at the end never change an answer
    the earlier ones give, and providers put in front take over only the
    events they bind. *)
Theorem resolve_concatenated_providers ps1 ps2 c ev :
  resolveAction toLowerCase isMac (mkManager (ps1 ++ ps2)) c ev
  = match resolveAction toLowerCase isMac (mkManager ps1) c ev with
    | Some a => Some a
    | None => resolveAction toLowerCase isMac (mkManager ps2) c ev
    end.
Proof.
  rewrite !resolveAction_getAction. simpl.
  rewrite map_app. apply getAction_append.
Qed.

(** X11. A provider whose list for the context has no binding matching the
    event is skipped: removing it from the sequence leaves the answer
    unchanged. A provider with an empty list is the plainest case. *)
Theorem silent_provider_is_skipped pre p post c ev :
  noMatch toLowerCase isMac ev (bindingsFor c p) ->
  resolveAction toLowerCase isMac (mkManager (pre ++ p :: post)) c ev
  = resolveAction toLowerCase isMac (mkManager (pre ++ post)) c ev.
Proof.
  intros Hn. rewrite !resolveAction_getAction. simpl.
  rewrite !map_app, !getAction_append. simpl.
  change (fun it => isKeyComboMatch toLowerCase ev (keyCombo it) isMac)
    with (matches toLowerCase isMac (T:=ActionOf c) ev).
  change (bindingsGetter c p tt) with (bindingsFor c p).
  rewrite (noMatch_find Hn). reflexivity.
Qed.

(** X12. The resolver returns an action exactly when it is the action of
    the first matching binding of the first provider, in sequence order,
    whose list for the context has a matching binding. In particular every
    action returned belongs to a binding that matches the event. *)
Theorem resolved_action_characterised this c ev a :
  resolveAction toLowerCase isMac this c ev = Some a <->
  exists pre p post b,
    bindingsProviders this = pre ++ p :: post /\
    silentProviders toLowerCase isMac c ev pre /\
    firstMatch toLowerCase isMac ev (bindingsFor c p) b /\
    action b = a.
Proof.
  rewrite resolveAction_getAction. split.
  - intros H.
    destruct (getAction_scan toLowerCase isMac c ev (bindingsProviders this))
      as [[_ Hg]|(pre & p & post & b & Hps & Hs & Hb & Hg)];
      rewrite Hg in H; [discriminate|].
    injection H as <-. exists pre, p, post, b.
    repeat (split; [assumption|]). reflexivity.
  - intros (pre & p & post & b & Hps & Hs & Hb & <-).
    rewrite Hps. apply getAction_at; assumption.
Qed.

(** X13. A lookup reads only the bindings of its own context: two managers
    whose providers yield, one by one, the same lists for a context answer
    alike in that context, whatever they hold for the other contexts. *)
Theorem lookup_reads_only_its_context this1 this2 c ev :
  map (bindingsFor c) (bindingsProviders this1)
  = map (bindingsFor c) (bindingsProviders this2) ->
  resolveAction toLowerCase isMac this1 c ev
  = resolveAction toLowerCase isMac this2 c ev.
Proof.
  intros H. rewrite !resolveAction_flat, !flat_map_concat_map, H.
  reflexivity.
Qed.

(** X14. Provider order followed by list order is one order: the resolver
    returns the action of the first matching binding of the providers' lists
    for the context laid end to end, and [None] when that search fails. *)
Theorem provider_sequence_flattens this c ev :
  resolveAction toLowerCase isMac this c ev
  = option_map (@action (ActionOf c))
      (find (matches toLowerCase isMac ev)
            (flat_map (bindingsFor c) (bindingsProviders this))).
Proof. apply resolveAction_flat. Qed.

(** A binding listed after one with the same combo is never found. *)
Lemma find_shadowed (T : Type) ev (l1 l2 l3 : list (KeyBinding T)) b1 b2 :
  keyCombo b1 = keyCombo b2 ->
  find (matches toLowerCase isMac ev) (l1 ++ b1 :: l2 ++ b2 :: l3)
  = find (matches toLowerCase isMac ev) (l1 ++ b1 :: l2 ++ l3).
Proof.
  intros Hc. rewrite !find_append. simpl.
  destruct (find (matches toLowerCase isMac ev) l1); [reflexivity|].
  destruct (matches toLowerCase isMac ev b1) eqn:Hb1; [reflexivity|].
  rewrite !find_append. simpl.
  destruct (find (matches toLowerCase isMac ev) l2); [reflexivity|].
  unfold matches in Hb1 |- *. rewrite <- Hc, Hb1. reflexivity.
Qed.

(** X15. A binding listed after another binding with the same combo in the
    same list is dead: deleting it changes no answer of the resolver, for
    any event and wherever the list stands in the sequence. *)
Theorem shadowed_binding_is_dead (T : Type)
    (pre post : list (KeyBindingGetter T))
    (l1 l2 l3 : list (KeyBinding T)) (b1 b2 : KeyBinding T) ev :
  keyCombo b1 = keyCombo b2 ->
  getAction toLowerCase isMac
    (pre ++ (fun _ => l1 ++ b1 :: l2 ++ b2 :: l3) :: post) ev
  = getAction toLowerCase isMac
      (pre ++ (fun _ => l1 ++ b1 :: l2 ++ l3) :: post) ev.
Proof.
  intros Hc. rewrite !getAction_append. simpl.
  change (fun it => isKeyComboMatch toLowerCase ev (keyCombo it) isMac)
    with (matches toLowerCase isMac (T:=T) ev).
  rewrite (@find_shadowed T ev l1 l2 l3 b1 b2 Hc). reflexivity.
Qed.

End ResolverLaws.

(** X11 at [[sendOnEnter; boldThenItalics]] and Ctrl+b off Mac: the first
    provider binds only Enter and can be left out. *)
Lemma silent_provider_is_skipped_witness :
  resolveAction asciiToLowerCase false
    (mkManager ([] ++ sendOnEnter :: [boldThenItalics])) MessageComposerCtx
    (ctrlPress "b")
  = resolveAction asciiToLowerCase false
      (mkManager ([] ++ [boldThenItalics])) MessageComposerCtx
      (ctrlPress "b").
Proof.
  apply (@silent_provider_is_skipped asciiToLowerCase false
           [] sendOnEnter [boldThenItalics] MessageComposerCtx
           (ctrlPress "b")).
  repeat constructor.
Defined.

(** X12 at [[sendOnEnter; boldThenItalics]] and Ctrl+b off Mac: the answer
    [FormatBold] comes from the second provider, the first being silent. *)
Lemma resolved_action_characterised_witness :
  resolveAction asciiToLowerCase false
    (mkManager [sendOnEnter; boldThenItalics]) MessageComposerCtx
    (ctrlPress "b")
  = Some FormatBold.
Proof.
  apply (proj2 (@resolved_action_characterised asciiToLowerCase false
                  (mkManager [sendOnEnter; boldThenItalics])
                  MessageComposerCtx (ctrlPress "b") FormatBold)).
  exists [sendOnEnter], boldThenItalics, [],
    (mkKeyBinding FormatBold (keyWithCtrlOrCmd "b")).
  split; [reflexivity|]. split; [repeat constructor|].
  split; [|reflexivity].
  exists [], [mkKeyBinding FormatItalics (keyWithCtrlOrCmd "b")].
  split; [reflexivity|]. split; [constructor|reflexivity].
Defined.

(** X13 at two providers with the same composer bindings and different room
    bindings. *)
Lemma lookup_reads_only_its_context_witness :
  resolveAction asciiToLowerCase false (mkManager [sendOnEnter])
    MessageComposerCtx (keyPress "Enter")
  = resolveAction asciiToLowerCase false (mkManager [sendOnEnterWithRoom])
      MessageComposerCtx (keyPress "Enter").
Proof.
  exact (@lookup_reads_only_its_context asciiToLowerCase false
           (mkManager [sendOnEnter]) (mkManager [sendOnEnterWithRoom])
           MessageComposerCtx (keyPress "Enter") eq_refl).
Defined.

(** X15 at the two Cmd+b bindings of [boldThenItalics]: the second can be
    deleted. *)
Lemma shadowed_binding_is_dead_witness :
  getAction asciiToLowerCase true
    ([] ++ (fun _ => [] ++ mkKeyBinding FormatBold (keyWithCtrlOrCmd "b")
                        :: [] ++ mkKeyBinding FormatItalics
                                   (keyWithCtrlOrCmd "b") :: []) :: [])
    (cmdPress "b")
  = getAction asciiToLowerCase true
      ([] ++ (fun _ => [] ++ mkKeyBinding FormatBold (keyWithCtrlOrCmd "b")
                          :: [] ++ []) :: [])
      (cmdPress "b").
Proof.
  exact (@shadowed_binding_is_dead asciiToLowerCase true
           MessageComposerAction [] [] [] [] []
           (mkKeyBinding FormatBold (keyWithCtrlOrCmd "b"))
           (mkKeyBinding FormatItalics (keyWithCtrlOrCmd "b"))
           (cmdPress "b") eq_refl).
Defined.

(** * The resolver across platforms, and the action values *)

Section PlatformLaws.

Variable toLowerCase : string -> string.

(** Searches with predicates that agree on the list agree. *)
Lemma find_agree (A : Type) (f g : A -> bool) (l : list A) :
  (forall x, In x l -> f x = g x) -> find f l = find g l.
Proof.
  induction l as [|x l IH]; simpl; intros H; [reflexivity|].
  rewrite <- (H x (or_introl eq_refl)).
  destruct (f x); [reflexivity|]. apply IH. intros y Hy. apply H. now right.
Qed.

(** Without [ctrlOrCmd] the platform flag is not read. *)
Lemma plain_combo_any_platform ev combo onMac1 onMac2 :
  truthy (KeyCombo.ctrlOrCmd combo) = false ->
  isKeyComboMatch toLowerCase ev combo onMac1
  = isKeyComboMatch toLowerCase ev combo onMac2.
Proof.
  intros Hc. unfold isKeyComboMatch. rewrite Hc. reflexivity.
Qed.

(** X16. When no binding of any provider's list for the context sets
    [ctrlOrCmd] (it is absent or false everywhere), the resolver gives the
    same answer on Mac and off Mac. *)
Theorem plain_bindings_resolve_alike_on_all_platforms this c ev :
  (forall p, In p (bindingsProviders this) ->
   forall b, In b (bindingsFor c p) ->
     KeyCombo.ctrlOrCmd (keyCombo b) = None \/
     KeyCombo.ctrlOrCmd (keyCombo b) = Some false) ->
  resolveAction toLowerCase true this c ev
  = resolveAction toLowerCase false this c ev.
Proof.
  intros H. rewrite !resolveAction_flat. f_equal.
  apply find_agree. intros b Hb.
  apply in_flat_map in Hb. destruct Hb as (p & Hp & Hb).
  unfold matches. apply plain_combo_any_platform.
  apply truthy_false. exact (H p Hp b Hb).
Qed.

End PlatformLaws.

(** X16 at [[sendOnEnter]], whose only binding is [{key: 'Enter'}]. *)
Lemma plain_bindings_resolve_alike_on_all_platforms_witness :
  resolveAction asciiToLowerCase true (mkManager [sendOnEnter])
    MessageComposerCtx (keyPress "Enter")
  = resolveAction asciiToLowerCase false (mkManager [sendOnEnter])
      MessageComposerCtx (keyPress "Enter").
Proof.
  apply (@plain_bindings_resolve_alike_on_all_platforms asciiToLowerCase
           (mkManager [sendOnEnter]) MessageComposerCtx (keyPress "Enter")).
  intros p [<-|[]] b [<-|[]]. left. reflexivity.
Defined.

(** X17. The string values of the actions are pairwise distinct, within an
    enumeration and across the five: two actions with the same value are
    the same member of the same enumeration. *)
Theorem action_values_distinct (c1 c2 : UIContext)
    (a1 : ActionOf c1) (a2 : ActionOf c2) :
  actionValue c1 a1 = actionValue c2 a2 ->
  existT ActionOf c1 a1 = existT ActionOf c2 a2.
Proof.
  destruct c1, c2; simpl in *; destruct a1, a2; simpl;
    intros H; try reflexivity; discriminate H.
Qed.

(** X17 at [UploadFile]. *)
Lemma action_values_distinct_witness :
  existT ActionOf RoomCtx UploadFile = existT ActionOf RoomCtx UploadFile.
Proof.
  exact (@action_values_distinct RoomCtx RoomCtx UploadFile UploadFile
           eq_refl).
Defined.
